(** * The product and cart demo services

    A shallow embedding of the two Flask applications
    [productservice/app.py] and [cartservice/app.py], and the properties of
    their two views [products] and [cart].

    The views are translated statement by statement.  What they call in
    [requests] and [flask] is modelled at the level the views observe it:
    - a call [requests.get url] that ends either raises or hands back a
      response object;
    - [Response.json ()] either raises or returns the decoded Python value;
    - [v[:2]] is Python's slice of [v], defined for lists and strings;
    - [jsonify v] builds a 200 response whose body is the JSON document [v];
    - Flask answers 500 when a view raises.

    Below that level, the HTTP exchanges behind one call (the redirects the
    session follows, an address that never answers) and the JSON documents
    behind a decoded value are modelled on their own, and the views are run
    on top of them. *)

From Stdlib Require Import ZArith NArith Ascii String.
From Stdlib Require Import Floats.SpecFloat.
From stdpp Require Import base option list strings gmap.
From stdpp Require Import pretty.

Open Scope Z_scope.
Open Scope string_scope.

(** ** Python values *)

(** A Python [str] is a sequence of Unicode code points; [s[:2]] counts code
    points, not bytes. *)
Abbreviation pystr := (list N).

(** The text of an ASCII literal of the source. *)
Definition str (s : string) : pystr :=
  N_of_ascii <$> list_ascii_of_string s.

#[local] Set Warnings "-register-all".

(** The values [json.loads] can produce.  A [dict] decoded from JSON has
    string keys and compares by content, whatever the order of its items. *)
Inductive pyval : Type :=
  | PyNone
  | PyBool (b : bool)
  | PyInt (z : Z)
  | PyFloat (f : spec_float)
  | PyStr (s : pystr)
  | PyList (l : list pyval)
  | PyDict (d : gmap pystr pyval).

(** ** Exceptions and the effects of a view *)

Inductive exn : Type :=
  | RequestException  (* requests.get: no connection, DNS failure, timeout, ... *)
  | JSONDecodeError   (* Response.json(): the body is not a JSON document *)
  | TypeError         (* None, bool, int and float are not subscriptable *)
  | SliceKeyError.    (* dict[slice]: TypeError (unhashable slice) up to
                         Python 3.11, KeyError from Python 3.12 *)

(** The response object [requests.get] returns: the status line and what
    [.json()] finds in the body ([None]: not a JSON document). *)
Record Response : Type := mkResponse {
  status_code : Z;
  body : option pyval
}.

(** How a call of [requests.get] ends, when it ends: with an exception, or
    with the response handed back to the caller, which is the last one of
    the exchanges the call made. *)
Inductive reply : Type :=
  | ConnectionFailed
  | Replies (r : Response).

(** The world around one service process: how a call of [requests.get] to
    an address ends now, the process environment, and the calls made so far
    (oldest first). *)
Record world : Type := mkWorld {
  upstream : string -> reply;
  environ : gmap string string;
  outbound : list string
}.

Inductive outcome (A : Type) : Type :=
  | Return (a : A)
  | Raise (e : exn).
Arguments Return {A} a.
Arguments Raise {A} e.

(** A computation reads and updates the world and returns or raises. *)
Definition M (A : Type) : Type := world -> outcome A * world.

Definition ret {A} (a : A) : M A := fun w => (Return a, w).
Definition raise {A} (e : exn) : M A := fun w => (Raise e, w).
Definition bind {A B} (m : M A) (k : A -> M B) : M B :=
  fun w =>
    match m w with
    | (Return a, w') => k a w'
    | (Raise e, w') => (Raise e, w')
    end.

Declare Scope py_scope.
Delimit Scope py_scope with py.
Notation "x <- m ;; k" := (bind m (fun x => k))
  (at level 100, m at next level, right associativity) : py_scope.

(** ** The library calls the views make *)

Definition sent (url : string) (w : world) : world :=
  {| upstream := upstream w; environ := environ w;
     outbound := outbound w ++ [url] |}.

(** [requests.get(url)], as the caller sees a call that ends: the call is
    recorded, and it raises or hands back the response it ended with,
    whatever the status of that response.  The exchanges behind the call are
    [session_get] below. *)
Definition requests_get (url : string) : M Response :=
  fun w =>
    match upstream w url with
    | ConnectionFailed => (Raise RequestException, sent url w)
    | Replies r => (Return r, sent url w)
    end.

(** [r.json()] *)
Definition json (r : Response) : M pyval :=
  match body r with
  | Some v => ret v
  | None => raise JSONDecodeError
  end.

(** [v[:n]] for a literal [n >= 0]. *)
Definition slice_to (n : nat) (v : pyval) : M pyval :=
  match v with
  | PyList l => ret (PyList (take n l))
  | PyStr s => ret (PyStr (take n s))
  | PyDict _ => raise SliceKeyError
  | PyNone | PyBool _ | PyInt _ | PyFloat _ => raise TypeError
  end.

(** The body of an HTTP response a service sends. *)
Inductive payload : Type :=
  | JsonDoc (v : pyval)
  | ErrorPage.

Record HttpResponse : Type := mkHttpResponse {
  status : Z;
  mimetype : string;
  data : payload
}.

(** [jsonify(v)] *)
Definition jsonify (v : pyval) : HttpResponse :=
  {| status := 200; mimetype := "application/json"; data := JsonDoc v |}.

Definition internal_server_error : HttpResponse :=
  {| status := 500; mimetype := "text/html"; data := ErrorPage |}.

(** Flask around a view: the view's response is sent; an exception leaving
    the view is answered with 500 Internal Server Error. *)
Definition wsgi_app (view : M HttpResponse) (w : world) : HttpResponse * world :=
  match view w with
  | (Return r, w') => (r, w')
  | (Raise _, w') => (internal_server_error, w')
  end.

(** ** productservice/app.py *)

Module productservice.

Definition sample_products : pyval :=
  PyList [
    PyDict (<[str "id" := PyInt 1]> (<[str "name" := PyStr (str "Laptop")]> ∅));
    PyDict (<[str "id" := PyInt 2]> (<[str "name" := PyStr (str "Mouse")]> ∅));
    PyDict (<[str "id" := PyInt 3]> (<[str "name" := PyStr (str "Keyboard")]> ∅))
  ].

Definition products : M HttpResponse :=
  ret (jsonify sample_products).

End productservice.

(** ** cartservice/app.py *)

Module cartservice.

Definition PRODUCT_SERVICE_URL : string := "http://productservice:5001/products".

Definition cart : M HttpResponse :=
  (r <- requests_get PRODUCT_SERVICE_URL ;;
   products <- json r ;;
   cart_items <- slice_to 2 products ;;
   ret (jsonify (PyDict {[ str "cart" := cart_items ]})))%py.

(** The value under the key [cart] of a JSON response. *)
Definition cart_field (r : HttpResponse) : option pyval :=
  match data r with
  | JsonDoc (PyDict d) => d !! str "cart"
  | _ => None
  end.

End cartservice.

(** ** The two services deployed together *)

(** The value under key [k] of a JSON object. *)
Definition field (k : string) (v : pyval) : option pyval :=
  match v with
  | PyDict d => d !! str k
  | _ => None
  end.

(** A product record with the two fields of the catalog's entries. *)
Definition product (id : Z) (name : string) : pyval :=
  PyDict {[ str "id" := PyInt id; str "name" := PyStr (str name) ]}.

(** What the client of a service reads from the response it is sent. *)
Definition received (r : HttpResponse) : Response :=
  {| status_code := status r;
     body := match data r with JsonDoc v => Some v | ErrorPage => None end |}.

(** The network on which the product service answers at the address the
    cart service uses, and nothing else answers. *)
Definition product_network (url : string) : reply :=
  if decide (url = cartservice.PRODUCT_SERVICE_URL)
  then Replies (received (wsgi_app productservice.products
                            (mkWorld (fun _ => ConnectionFailed) ∅ [])).1)
  else ConnectionFailed.

(** A network that answers every GET with the same response. *)
Definition answering (r : Response) : world :=
  {| upstream := fun _ => Replies r; environ := ∅; outbound := [] |}.

(** A network that answers every GET with status 200 and the JSON array
    [7, 8, 9]. *)
Definition three_entries : world :=
  answering (mkResponse 200 (Some (PyList [PyInt 7; PyInt 8; PyInt 9]))).

(** A network that answers every GET with status 500 and the JSON array
    [7] as its body. *)
Definition server_error_with_array : world :=
  answering (mkResponse 500 (Some (PyList [PyInt 7]))).

(** A network on which no connection succeeds. *)
Definition unreachable : world :=
  {| upstream := fun _ => ConnectionFailed; environ := ∅; outbound := [] |}.

(** The outbound call of the cart service counted as failed: no exchange, a
    body that is not JSON, or a status outside 200..299. *)
Definition call_failed (rp : reply) : Prop :=
  match rp with
  | ConnectionFailed => True
  | Replies r => body r = None ∨ ¬ (200 ≤ status_code r < 300)
  end.

(** The network on which a service running [view] in the world [u] answers
    at the address the cart service uses, and nothing else answers. *)
Definition service_network (view : M HttpResponse) (u : world) (url : string) : reply :=
  if decide (url = cartservice.PRODUCT_SERVICE_URL)
  then Replies (received (wsgi_app view u).1)
  else ConnectionFailed.

(** The cart service in front of a service running [view] in [u]. *)
Definition behind (view : M HttpResponse) (u : world)
    (env : gmap string string) (log : list string) : world :=
  {| upstream := service_network view u; environ := env; outbound := log |}.

(** The decoded values [v[:2]] is defined on. *)
Definition sliceable (v : pyval) : Prop :=
  match v with
  | PyList _ | PyStr _ => True
  | _ => False
  end.

(** A [cart] value as the view can build it: a list or a string of at most
    two elements. *)
Definition short_sequence (v : pyval) : Prop :=
  match v with
  | PyList l => (length l ≤ 2)%nat
  | PyStr s => (length s ≤ 2)%nat
  | _ => False
  end.

(** ** Routes and entry points *)

(** The arguments of [app.run]: the address and the port a service binds. *)
Record listen : Type := mkListen {
  host : string;
  port : Z
}.

(** productservice/app.py: [@app.route("/products")] and
    [app.run(host="0.0.0.0", port=5001)]. *)
Definition products_rule : string := "/products".
Definition productservice_run : listen := {| host := "0.0.0.0"; port := 5001 |}.

(** cartservice/app.py: [@app.route("/cart")] and
    [app.run(host="0.0.0.0", port=5000)]. *)
Definition cart_rule : string := "/cart".
Definition cartservice_run : listen := {| host := "0.0.0.0"; port := 5000 |}.

(** ** The HTTP exchanges behind one call *)

(** One answer to one GET, as the session reads it: the status, the address
    the Location header names once resolved against the address asked
    ([None]: no such header, or an empty one), and what [.json()] would find
    in the body. *)
Record Answer : Type := mkAnswer {
  answer_status : Z;
  answer_location : option string;
  answer_body : option pyval
}.

(** What happens to one GET sent to an address. *)
Inductive exchange : Type :=
  | Silent                (* no answer ever comes; no timeout is set *)
  | Broken                (* refused, reset, unknown host, ... *)
  | Answered (a : Answer).

(** [requests.models.REDIRECT_STATI] and
    [requests.models.DEFAULT_REDIRECT_LIMIT]. *)
Definition REDIRECT_STATI : list Z := [301; 302; 303; 307; 308].
Definition DEFAULT_REDIRECT_LIMIT : nat := 30.

(** [Session.get_redirect_target]: an answer is a redirect to follow when
    its status is one of the redirect statuses and it names a location. *)
Definition get_redirect_target (a : Answer) : option string :=
  if decide (answer_status a ∈ REDIRECT_STATI) then answer_location a else None.

(** How a call ends, if it does. *)
Inductive call : Type :=
  | Blocked
  | Done (rp : reply).

(** [Session.send] with [allow_redirects=True], the default of
    [requests.get]: the GET is sent; a redirect is followed by a GET to its
    target, up to [redirects_left] times, after which one more redirect
    raises TooManyRedirects, and the call ends as a failed one.  The result
    is how the call ends and the GETs sent, in order. *)
Fixpoint resolve_redirects (n : string → exchange) (redirects_left : nat)
    (url : string) : call * list string :=
  match n url with
  | Silent => (Blocked, [url])
  | Broken => (Done ConnectionFailed, [url])
  | Answered a =>
      match get_redirect_target a with
      | None => (Done (Replies (mkResponse (answer_status a) (answer_body a))), [url])
      | Some next =>
          match redirects_left with
          | O => (Done ConnectionFailed, [url])
          | S redirects_left' =>
              let '(c, gets) := resolve_redirects n redirects_left' next in
              (c, url :: gets)
          end
      end
  end.

Definition session_get (n : string → exchange) (url : string) : call * list string :=
  resolve_redirects n DEFAULT_REDIRECT_LIMIT url.

(** The world of a view whose calls all end with [rp]. *)
Definition handed (rp : reply) : world :=
  {| upstream := fun _ => rp; environ := ∅; outbound := [] |}.

(** One GET /cart on a network: the session makes the exchanges of the one
    call of the view; when the call ends the view goes on with what it is
    handed and its caller is answered; when it blocks, no answer is sent.
    The result is the answer, if any, and the GETs that went out. *)
Definition cart_on (n : string → exchange) : option HttpResponse * list string :=
  let '(c, gets) := session_get n cartservice.PRODUCT_SERVICE_URL in
  (match c with
   | Blocked => None
   | Done rp => Some (wsgi_app cartservice.cart (handed rp)).1
   end, gets).

(** The answer a client reads from a response of one of the two services;
    neither sets a Location header. *)
Definition answer_of (r : HttpResponse) : Answer :=
  {| answer_status := status r;
     answer_location := None;
     answer_body := body (received r) |}.

(** The network on which a service that sends [r] ([None]: that sends
    nothing) answers at the address the cart service calls, and no other
    address can be reached. *)
Definition served (r : option HttpResponse) (url : string) : exchange :=
  if decide (url = cartservice.PRODUCT_SERVICE_URL)
  then match r with Some r => Answered (answer_of r) | None => Silent end
  else Broken.

(** The product address answers 302 with the location of another address,
    which answers 200 with the JSON array [7, 8, 9]. *)
Definition moved_catalog : string → exchange :=
  fun url =>
    if decide (url = cartservice.PRODUCT_SERVICE_URL)
    then Answered (mkAnswer 302 (Some "http://elsewhere:8080/catalog") None)
    else if decide (url = "http://elsewhere:8080/catalog")
    then Answered (mkAnswer 200 None (Some (PyList [PyInt 7; PyInt 8; PyInt 9])))
    else Broken.

(** The product address answers [a], and no other address can be reached. *)
Definition answers (a : Answer) : string → exchange :=
  fun url =>
    if decide (url = cartservice.PRODUCT_SERVICE_URL) then Answered a else Broken.

(** ** JSON documents *)

(** A JSON document as it is written, up to white space and the spelling of
    numbers and escapes: the members of an object are kept in the order
    written, repeated names included. *)
Inductive document : Type :=
  | JNull
  | JBool (b : bool)
  | JInt (z : Z)
  | JFloat (f : spec_float)
  | JString (s : pystr)
  | JArray (items : list document)
  | JObject (members : list (pystr * document)).

(** The value [json.loads] returns for a document: an object becomes the
    [dict] of its members, the last one written winning for a repeated
    name. *)
Fixpoint json_value (d : document) : pyval :=
  match d with
  | JNull => PyNone
  | JBool b => PyBool b
  | JInt z => PyInt z
  | JFloat f => PyFloat f
  | JString s => PyStr s
  | JArray items => PyList (map json_value items)
  | JObject members =>
      PyDict (list_to_map (reverse (map (fun m => (m.1, json_value m.2)) members)))
  end.

(** The same record written with its two members in either order. *)
Definition laptop_name_first : document :=
  JObject [(str "name", JString (str "Laptop")); (str "id", JInt 1)].
Definition laptop_id_first : document :=
  JObject [(str "id", JInt 1); (str "name", JString (str "Laptop"))].

(** The reading of "byte-for-byte" for a way [written] of putting the
    elements of the [cart] field of a response on the wire, one document for
    each element, that decodes to it: whatever array of documents the
    upstream body holds, each element written is the upstream element at the
    same position, as it was written. *)
Definition passes_documents_through
    (written : HttpResponse → list document) : Prop :=
  ∀ (w : world) (st : Z) (items : list document),
    upstream w cartservice.PRODUCT_SERVICE_URL =
      Replies (mkResponse st (Some (json_value (JArray items)))) →
    ∃ cart_items,
      cartservice.cart_field (wsgi_app cartservice.cart w).1 = Some (PyList cart_items)
      ∧ map json_value (written (wsgi_app cartservice.cart w).1) = cart_items
      ∧ ∀ i x, written (wsgi_app cartservice.cart w).1 !! i = Some x →
               items !! i = Some x.

(** ** Running the views *)

Import productservice cartservice.

Section Runs.

Variable w : world.

Lemma requests_get_world url : (requests_get url w).2 = sent url w.
Proof. unfold requests_get. by destruct (upstream w url). Qed.

Lemma slice_to_pure n v w0 : (slice_to n v w0).2 = w0.
Proof. by destruct v. Qed.

(** Whatever happens, [cart] leaves the world with one more outbound GET. *)
Lemma cart_world : (cart w).2 = sent PRODUCT_SERVICE_URL w.
Proof.
  unfold cart, bind, requests_get.
  destruct (upstream w PRODUCT_SERVICE_URL) as [|[st [v|]]]; simpl; try done.
  destruct v; done.
Qed.

Lemma cart_unreachable :
  upstream w PRODUCT_SERVICE_URL = ConnectionFailed →
  (cart w).1 = Raise RequestException.
Proof. intros Hup. unfold cart, bind, requests_get. by rewrite Hup. Qed.

Lemma cart_not_json st :
  upstream w PRODUCT_SERVICE_URL = Replies (mkResponse st None) →
  (cart w).1 = Raise JSONDecodeError.
Proof. intros Hup. unfold cart, bind, requests_get. by rewrite Hup. Qed.

(** Once the body is decoded, the outcome is decided by the slice alone. *)
Lemma cart_decoded st v :
  upstream w PRODUCT_SERVICE_URL = Replies (mkResponse st (Some v)) →
  (cart w).1 =
    match (slice_to 2 v w).1 with
    | Return cart_items => Return (jsonify (PyDict {[ str "cart" := cart_items ]}))
    | Raise e => Raise e
    end.
Proof.
  intros Hup. unfold cart, bind, requests_get. rewrite Hup. simpl.
  by destruct v.
Qed.

Lemma cart_list st l :
  upstream w PRODUCT_SERVICE_URL = Replies (mkResponse st (Some (PyList l))) →
  (cart w).1 = Return (jsonify (PyDict {[ str "cart" := PyList (take 2 l) ]})).
Proof. intros Hup. by rewrite (cart_decoded _ _ Hup). Qed.

Lemma wsgi_app_return view r :
  (view w).1 = Return r → (wsgi_app view w).1 = r.
Proof. unfold wsgi_app. destruct (view w) as [[r'|e] w']; simpl; congruence. Qed.

Lemma wsgi_app_raise view e :
  (view w).1 = Raise e → (wsgi_app view w).1 = internal_server_error.
Proof. unfold wsgi_app. destruct (view w) as [[r'|e'] w']; simpl; congruence. Qed.

Lemma wsgi_app_world view : (wsgi_app view w).2 = (view w).2.
Proof. unfold wsgi_app. by destruct (view w) as [[r'|e'] w']. Qed.

End Runs.

Lemma cart_field_jsonify v :
  cart_field (jsonify (PyDict {[ str "cart" := v ]})) = Some v.
Proof. unfold cart_field, jsonify; simpl. apply lookup_singleton_eq. Qed.

(** ** The product service *)

(** C2. Every call of the /products view answers 200 with a JSON body equal
    to the fixed ordered list Laptop (1), Mouse (2), Keyboard (3), and leaves
    the world as it was. *)
Theorem products_fixed_catalog (w : world) :
  wsgi_app products w =
    ({| status := 200; mimetype := "application/json";
        data := JsonDoc (PyList [product 1 "Laptop"; product 2 "Mouse";
                                 product 3 "Keyboard"]) |}, w)
  ∧ products w = (Return (wsgi_app products w).1, w).
Proof. split; reflexivity. Qed.

(** C7. The /products view is deterministic: in any two worlds it returns
    the same response, whose body lists the same three entries in the same
    order, and it never raises. *)
Theorem products_deterministic (w1 w2 : world) :
  (products w1).1 = (products w2).1
  ∧ (wsgi_app products w1).1 = (wsgi_app products w2).1
  ∧ (wsgi_app products (wsgi_app products w1).2).1 = (wsgi_app products w1).1
  ∧ ∃ l, data (wsgi_app products w1).1 = JsonDoc (PyList l)
      ∧ field "id" <$> l = [Some (PyInt 1); Some (PyInt 2); Some (PyInt 3)]
      ∧ field "name" <$> l =
          [Some (PyStr (str "Laptop")); Some (PyStr (str "Mouse"));
           Some (PyStr (str "Keyboard"))].
Proof.
  repeat split; try reflexivity.
  eexists; split; [reflexivity|]. split; vm_compute; reflexivity.
Qed.

(** ** The cart service on a catalog *)

(** C1. When the product service returns a JSON array with at least two
    entries, the /cart response is 200 and its [cart] field is exactly the
    first two entries, in the same order. *)
Theorem cart_first_two (w : world) (st : Z) (catalog : list pyval) (a b : pyval) :
  upstream w PRODUCT_SERVICE_URL = Replies (mkResponse st (Some (PyList catalog))) →
  catalog !! 0%nat = Some a →
  catalog !! 1%nat = Some b →
  (cart w).1 = Return (jsonify (PyDict {[ str "cart" := PyList [a; b] ]}))
  ∧ status (wsgi_app cart w).1 = 200
  ∧ cart_field (wsgi_app cart w).1 = Some (PyList [a; b]).
Proof.
  intros Hup Ha Hb.
  destruct catalog as [|a' [|b' rest]]; simplify_eq/=.
  pose proof (cart_list w _ _ Hup) as Hrun; simpl in Hrun.
  rewrite (wsgi_app_return _ _ _ Hrun), cart_field_jsonify. done.
Qed.

Lemma cart_first_two_witness :
  (cart three_entries).1 =
    Return (jsonify (PyDict {[ str "cart" := PyList [PyInt 7; PyInt 8] ]}))
  ∧ status (wsgi_app cart three_entries).1 = 200
  ∧ cart_field (wsgi_app cart three_entries).1 = Some (PyList [PyInt 7; PyInt 8]).
Proof.
  apply (cart_first_two three_entries 200 [PyInt 7; PyInt 8; PyInt 9]); reflexivity.
Defined.

(** C4. Whatever the length of the JSON array the product service returns,
    the [cart] sequence has at most two elements and is a prefix of the
    array: it is the array cut after its second element, nothing else. *)
Theorem cart_is_prefix (w : world) (st : Z) (catalog : list pyval) :
  upstream w PRODUCT_SERVICE_URL = Replies (mkResponse st (Some (PyList catalog))) →
  ∃ items,
    cart_field (wsgi_app cart w).1 = Some (PyList items)
    ∧ (length items ≤ 2)%nat
    ∧ items `prefix_of` catalog
    ∧ items = take 2 catalog.
Proof.
  intros Hup. exists (take 2 catalog).
  rewrite (wsgi_app_return _ _ _ (cart_list w _ _ Hup)), cart_field_jsonify.
  split_and!; [done| |apply prefix_take|done].
  rewrite length_take. lia.
Qed.

Lemma cart_is_prefix_witness :
  ∃ items,
    cart_field (wsgi_app cart three_entries).1 = Some (PyList items)
    ∧ (length items ≤ 2)%nat
    ∧ items `prefix_of` [PyInt 7; PyInt 8; PyInt 9]
    ∧ items = take 2 [PyInt 7; PyInt 8; PyInt 9].
Proof. apply (cart_is_prefix three_entries 200). reflexivity. Defined.

(** C5. A catalog of zero or one entries is returned whole under [cart]: the
    view returns a 200 response and the slice does not raise. *)
Theorem cart_short_catalog (w : world) (st : Z) (catalog : list pyval) :
  upstream w PRODUCT_SERVICE_URL = Replies (mkResponse st (Some (PyList catalog))) →
  (length catalog ≤ 1)%nat →
  (cart w).1 = Return (jsonify (PyDict {[ str "cart" := PyList catalog ]}))
  ∧ status (wsgi_app cart w).1 = 200
  ∧ cart_field (wsgi_app cart w).1 = Some (PyList catalog).
Proof.
  intros Hup Hlen.
  pose proof (cart_list w _ _ Hup) as Hrun.
  rewrite take_ge in Hrun by lia.
  rewrite (wsgi_app_return _ _ _ Hrun), cart_field_jsonify. done.
Qed.

Lemma cart_short_catalog_witness :
  ((cart (answering (mkResponse 200 (Some (PyList []))))).1 =
     Return (jsonify (PyDict {[ str "cart" := PyList [] ]}))
   ∧ status (wsgi_app cart (answering (mkResponse 200 (Some (PyList []))))).1 = 200
   ∧ cart_field (wsgi_app cart (answering (mkResponse 200 (Some (PyList []))))).1 =
       Some (PyList []))
  ∧ ((cart (answering (mkResponse 200 (Some (PyList [PyInt 7]))))).1 =
       Return (jsonify (PyDict {[ str "cart" := PyList [PyInt 7] ]}))
     ∧ status (wsgi_app cart (answering (mkResponse 200 (Some (PyList [PyInt 7]))))).1 = 200
     ∧ cart_field (wsgi_app cart (answering (mkResponse 200 (Some (PyList [PyInt 7]))))).1 =
         Some (PyList [PyInt 7])).
Proof.
  split.
  - apply (cart_short_catalog _ 200 []); [reflexivity | simpl; lia].
  - apply (cart_short_catalog _ 200 [PyInt 7]); [reflexivity | simpl; lia].
Defined.

(** C6, as the claim states it, fails.  The same record written with its
    members in the two orders is two documents with one decoded value; the
    view holds that value alone, so its answer to the two is the same, and
    however that answer is written it cannot show both documents as they
    were written. *)
Lemma cart_reencodes :
  laptop_name_first ≠ laptop_id_first
  ∧ json_value laptop_name_first = json_value laptop_id_first
  ∧ (wsgi_app cart (answering (mkResponse 200
       (Some (json_value (JArray [laptop_name_first])))))).1 =
     (wsgi_app cart (answering (mkResponse 200
       (Some (json_value (JArray [laptop_id_first])))))).1
  ∧ ¬ (∃ written : HttpResponse → list document, passes_documents_through written).
Proof.
  split_and!; [discriminate|reflexivity|reflexivity|].
  intros [written Hclaim].
  destruct (Hclaim (answering (mkResponse 200
              (Some (json_value (JArray [laptop_name_first])))))
            200 [laptop_name_first] eq_refl) as (cart_items & Hfield & Hdec & Hname).
  destruct (Hclaim (answering (mkResponse 200
              (Some (json_value (JArray [laptop_name_first])))))
            200 [laptop_id_first] eq_refl) as (cart_items' & _ & _ & Hid).
  assert ((wsgi_app cart (answering (mkResponse 200
             (Some (json_value (JArray [laptop_name_first])))))).1 =
          jsonify (PyDict {[ str "cart" := PyList [json_value laptop_name_first] ]}))
    as Hrun by reflexivity.
  rewrite Hrun in Hfield, Hdec, Hname, Hid.
  rewrite cart_field_jsonify in Hfield. simplify_eq.
  destruct (written _) as [|x rest]; [discriminate|].
  specialize (Hname 0%nat x eq_refl). specialize (Hid 0%nat x eq_refl).
  simpl in Hname, Hid.
  assert (laptop_name_first = laptop_id_first) as Hsame by congruence.
  unfold laptop_name_first, laptop_id_first in Hsame. discriminate Hsame.
Qed.

(** C6, amended.  Every element of the [cart] field is, as a decoded value,
    the element of the decoded upstream array at the same position: the
    first two positions are passed through unchanged, whatever they are, and
    nothing follows them. *)
Theorem cart_items_unmodified (w : world) (st : Z) (catalog : list pyval) :
  upstream w PRODUCT_SERVICE_URL = Replies (mkResponse st (Some (PyList catalog))) →
  ∃ items,
    cart_field (wsgi_app cart w).1 = Some (PyList items)
    ∧ (∀ i x, items !! i = Some x → catalog !! i = Some x)
    ∧ (∀ i, (i < 2)%nat → items !! i = catalog !! i)
    ∧ (∀ i, (2 ≤ i)%nat → items !! i = None).
Proof.
  intros Hup. exists (take 2 catalog).
  rewrite (wsgi_app_return _ _ _ (cart_list w _ _ Hup)), cart_field_jsonify.
  split_and!; [done| | |].
  - intros i x Hi. apply lookup_take_Some in Hi. tauto.
  - intros i Hi. by apply lookup_take_lt.
  - intros i Hi. by apply lookup_take_ge.
Qed.

Lemma cart_items_unmodified_witness :
  ∃ items,
    cart_field (wsgi_app cart (answering (mkResponse 200
      (Some (PyList [PyStr (str "x"); PyNone; PyInt 9]))))).1 = Some (PyList items)
    ∧ (∀ i x, items !! i = Some x →
         [PyStr (str "x"); PyNone; PyInt 9] !! i = Some x)
    ∧ (∀ i, (i < 2)%nat → items !! i = [PyStr (str "x"); PyNone; PyInt 9] !! i)
    ∧ (∀ i, (2 ≤ i)%nat → items !! i = None).
Proof. apply (cart_items_unmodified _ 200). reflexivity. Defined.

(** ** Faults of the outbound call *)

(** The status line plays no part: replies that differ in the status only
    give the same run of the view. *)
Lemma cart_ignores_status (w w' : world) (st st' : Z) (b : option pyval) :
  upstream w PRODUCT_SERVICE_URL = Replies (mkResponse st b) →
  upstream w' PRODUCT_SERVICE_URL = Replies (mkResponse st' b) →
  (cart w).1 = (cart w').1.
Proof.
  intros Hup Hup'. destruct b as [v|].
  - rewrite (cart_decoded w _ _ Hup), (cart_decoded w' _ _ Hup'). by destruct v.
  - by rewrite (cart_not_json w _ Hup), (cart_not_json w' _ Hup').
Qed.

(** C3, as the claim states it, fails.  A reply with status 500 counts as a
    failed call, yet when its body is the JSON array [7] the view does not
    raise: it returns its usual 200 response with [cart] equal to [7]. *)
Lemma cart_non_2xx_not_raised :
  call_failed (upstream server_error_with_array PRODUCT_SERVICE_URL)
  ∧ (cart server_error_with_array).1 =
      Return (jsonify (PyDict {[ str "cart" := PyList [PyInt 7] ]}))
  ∧ status (wsgi_app cart server_error_with_array).1 = 200
  ∧ ¬ (∀ w : world,
         call_failed (upstream w PRODUCT_SERVICE_URL) →
         ∃ e, (cart w).1 = Raise e).
Proof.
  assert (call_failed (upstream server_error_with_array PRODUCT_SERVICE_URL))
    as Hfailed by (simpl; right; lia).
  split_and!; [done|reflexivity|reflexivity|].
  intros Hclaim. destruct (Hclaim _ Hfailed) as [e He].
  vm_compute in He. discriminate He.
Qed.

(** C3, amended. When no exchange takes place, or the body of the reply is
    not a JSON document, the exception of the library call leaves the view
    as it is, no response is built, and the caller is answered 500. *)
Theorem cart_fault_propagates (w : world) :
  match upstream w PRODUCT_SERVICE_URL with
  | ConnectionFailed => True
  | Replies r => body r = None
  end →
  (cart w).1 =
    Raise (match upstream w PRODUCT_SERVICE_URL with
           | ConnectionFailed => RequestException
           | Replies _ => JSONDecodeError
           end)
  ∧ (∀ resp, (cart w).1 ≠ Return resp)
  ∧ (wsgi_app cart w).1 = internal_server_error
  ∧ status (wsgi_app cart w).1 = 500.
Proof.
  intros Hfail.
  assert ((cart w).1 =
            Raise (match upstream w PRODUCT_SERVICE_URL with
                   | ConnectionFailed => RequestException
                   | Replies _ => JSONDecodeError
                   end)) as Hrun.
  { destruct (upstream w PRODUCT_SERVICE_URL) as [|[st b]] eqn:Hup.
    - by apply cart_unreachable.
    - simpl in Hfail; subst b. by apply (cart_not_json w st). }
  split_and!; [done| | |].
  - intros resp. rewrite Hrun. discriminate.
  - by apply (wsgi_app_raise _ _ _ Hrun).
  - by rewrite (wsgi_app_raise _ _ _ Hrun).
Qed.

Lemma cart_fault_propagates_witness :
  ((cart unreachable).1 = Raise RequestException
   ∧ (∀ resp, (cart unreachable).1 ≠ Return resp)
   ∧ (wsgi_app cart unreachable).1 = internal_server_error
   ∧ status (wsgi_app cart unreachable).1 = 500)
  ∧ ((cart (answering (mkResponse 404 None))).1 = Raise JSONDecodeError
     ∧ (∀ resp, (cart (answering (mkResponse 404 None))).1 ≠ Return resp)
     ∧ (wsgi_app cart (answering (mkResponse 404 None))).1 = internal_server_error
     ∧ status (wsgi_app cart (answering (mkResponse 404 None))).1 = 500).
Proof.
  split.
  - apply (cart_fault_propagates unreachable). exact I.
  - apply (cart_fault_propagates (answering (mkResponse 404 None))). reflexivity.
Defined.

(** C10. The view never looks at what the decoded body is before slicing it.
    A JSON object makes the slice raise and the caller gets 500; a JSON
    string is sliced like a list and its first two characters are returned
    under [cart] with status 200; only lists and strings give a response. *)
Theorem cart_needs_sliceable (w : world) (st : Z) (v : pyval) :
  upstream w PRODUCT_SERVICE_URL = Replies (mkResponse st (Some v)) →
  match v with
  | PyDict _ =>
      (cart w).1 = Raise SliceKeyError
      ∧ (wsgi_app cart w).1 = internal_server_error
  | PyStr s =>
      (cart w).1 = Return (jsonify (PyDict {[ str "cart" := PyStr (take 2 s) ]}))
      ∧ status (wsgi_app cart w).1 = 200
      ∧ cart_field (wsgi_app cart w).1 = Some (PyStr (take 2 s))
  | PyList l =>
      (cart w).1 = Return (jsonify (PyDict {[ str "cart" := PyList (take 2 l) ]}))
  | PyNone | PyBool _ | PyInt _ | PyFloat _ =>
      (cart w).1 = Raise TypeError
      ∧ (wsgi_app cart w).1 = internal_server_error
  end.
Proof.
  intros Hup. pose proof (cart_decoded w _ _ Hup) as Hrun.
  destruct v; simpl in Hrun;
    try (split; [done | by apply (wsgi_app_raise _ _ _ Hrun)]);
    try done.
  rewrite (wsgi_app_return _ _ _ Hrun), cart_field_jsonify. done.
Qed.

Lemma cart_needs_sliceable_witness :
  ((cart (answering (mkResponse 200 (Some (product 1 "Laptop"))))).1 = Raise SliceKeyError
   ∧ (wsgi_app cart (answering (mkResponse 200 (Some (product 1 "Laptop"))))).1 =
       internal_server_error)
  ∧ ((cart (answering (mkResponse 200 (Some (PyStr (str "Laptop")))))).1 =
       Return (jsonify (PyDict {[ str "cart" := PyStr (str "La") ]}))
     ∧ status (wsgi_app cart (answering (mkResponse 200 (Some (PyStr (str "Laptop")))))).1 = 200
     ∧ cart_field (wsgi_app cart (answering (mkResponse 200 (Some (PyStr (str "Laptop")))))).1 =
         Some (PyStr (str "La"))).
Proof.
  split.
  - apply (cart_needs_sliceable _ 200 (product 1 "Laptop")). reflexivity.
  - apply (cart_needs_sliceable _ 200 (PyStr (str "Laptop"))). reflexivity.
Defined.

(** ** Effects of one request *)

(** The GETs of a call start with the address called, and the redirects
    followed are at most [redirects_left]. *)
Lemma resolve_redirects_gets (n : string → exchange) (redirects_left : nat)
    (url : string) :
  ∃ rest, (resolve_redirects n redirects_left url).2 = url :: rest
          ∧ (length rest ≤ redirects_left)%nat.
Proof.
  revert url. induction redirects_left as [|k IH]; intros url; simpl.
  - destruct (n url) as [| |a]; [by exists []..|].
    destruct (get_redirect_target a); by exists [].
  - destruct (n url) as [| |a]; [exists []; simpl; split; [done|lia]..|].
    destruct (get_redirect_target a) as [next|]; [|exists []; simpl; split; [done|lia]].
    destruct (IH next) as (rest & Hrest & Hlen).
    destruct (resolve_redirects n k next) as [c gets]; simpl in *; subst gets.
    exists (next :: rest). simpl. split; [done|lia].
Qed.

Lemma resolve_redirects_step (n : string → exchange) (k : nat) (url : string) :
  resolve_redirects n (S k) url =
    match n url with
    | Silent => (Blocked, [url])
    | Broken => (Done ConnectionFailed, [url])
    | Answered a =>
        match get_redirect_target a with
        | None => (Done (Replies (mkResponse (answer_status a) (answer_body a))), [url])
        | Some next =>
            let '(c, gets) := resolve_redirects n k next in (c, url :: gets)
        end
    end.
Proof. reflexivity. Qed.

(** An answer that is not a redirect to follow ends the call. *)
Lemma resolve_redirects_final (n : string → exchange) (redirects_left : nat)
    (url : string) (a : Answer) :
  n url = Answered a →
  get_redirect_target a = None →
  resolve_redirects n redirects_left url =
    (Done (Replies (mkResponse (answer_status a) (answer_body a))), [url]).
Proof. intros Hn Ha. destruct redirects_left; simpl; by rewrite Hn, Ha. Qed.

Lemma cart_on_gets (n : string → exchange) :
  (cart_on n).2 = (session_get n PRODUCT_SERVICE_URL).2.
Proof. unfold cart_on. by destruct (session_get n PRODUCT_SERVICE_URL). Qed.

Lemma cart_on_answer (n : string → exchange) :
  (cart_on n).1 =
    match (session_get n PRODUCT_SERVICE_URL).1 with
    | Blocked => None
    | Done rp => Some (wsgi_app cart (handed rp)).1
    end.
Proof. unfold cart_on. by destruct (session_get n PRODUCT_SERVICE_URL). Qed.

(** C9, as the claim states it, fails.  When the product address answers 302
    with a location, the call of the view sends a second GET, to that
    location, and the view answers from what it finds there: two outbound
    GETs for one request, the second one not to the fixed address. *)
Lemma cart_follows_redirect :
  cart_on moved_catalog =
    (Some (jsonify (PyDict {[ str "cart" := PyList [PyInt 7; PyInt 8] ]})),
     ["http://productservice:5001/products"; "http://elsewhere:8080/catalog"])
  ∧ ¬ (∀ n : string → exchange,
         (cart_on n).2 = ["http://productservice:5001/products"]).
Proof.
  assert (cart_on moved_catalog =
            (Some (jsonify (PyDict {[ str "cart" := PyList [PyInt 7; PyInt 8] ]})),
             ["http://productservice:5001/products"; "http://elsewhere:8080/catalog"]))
    as Hrun by reflexivity.
  split; [done|]. intros Hclaim. specialize (Hclaim moved_catalog).
  rewrite Hrun in Hclaim. discriminate Hclaim.
Qed.

(** C9, amended.  Each run of the /cart view makes exactly one call of
    [requests.get], with the fixed address, and a second run makes it again;
    the call of the view is left as it was.  On the wire the first GET of
    the request goes to the fixed address; it is the only one when that
    address does not answer, or answers with anything but a redirect to
    follow; a redirect is followed by a GET to its location, and at most 30
    redirects are followed. *)
Theorem cart_one_call_per_request (w : world) (n : string → exchange) :
  outbound (wsgi_app cart w).2 =
    (outbound w ++ ["http://productservice:5001/products"])%list
  ∧ outbound (wsgi_app cart (wsgi_app cart w).2).2 =
      (outbound w ++ ["http://productservice:5001/products";
                      "http://productservice:5001/products"])%list
  ∧ upstream (wsgi_app cart w).2 = upstream w
  ∧ (∃ rest, (cart_on n).2 = "http://productservice:5001/products" :: rest
             ∧ (length rest ≤ 30)%nat)
  ∧ match n "http://productservice:5001/products" with
    | Answered a =>
        match get_redirect_target a with
        | None => (cart_on n).2 = ["http://productservice:5001/products"]
        | Some next =>
            ∃ rest, (cart_on n).2 = "http://productservice:5001/products" :: next :: rest
        end
    | Silent | Broken => (cart_on n).2 = ["http://productservice:5001/products"]
    end.
Proof.
  rewrite !wsgi_app_world, !cart_world. simpl.
  split_and!; try done.
  - by rewrite <- app_assoc.
  - rewrite cart_on_gets. apply resolve_redirects_gets.
  - rewrite cart_on_gets. unfold session_get, DEFAULT_REDIRECT_LIMIT.
    change "http://productservice:5001/products" with PRODUCT_SERVICE_URL.
    rewrite (resolve_redirects_step n 29).
    destruct (n PRODUCT_SERVICE_URL) as [| |a]; [done..|].
    destruct (get_redirect_target a) as [next|]; [|done].
    destruct (resolve_redirects_gets n 29 next) as (rest & Hrest & _).
    destruct (resolve_redirects n 29 next) as [c gets].
    simpl in Hrest |- *. subst gets. by exists rest.
Qed.

(** C8. Two runs of the /cart view against the same answer of the product
    service give the same result: the result depends on that answer alone,
    a run leaves the network as it found it, and so a run that follows
    another returns what the first one returned. *)
Theorem cart_idempotent (w w' : world) :
  upstream w' PRODUCT_SERVICE_URL = upstream w PRODUCT_SERVICE_URL →
  (cart w').1 = (cart w).1
  ∧ (wsgi_app cart w').1 = (wsgi_app cart w).1
  ∧ upstream (wsgi_app cart w).2 = upstream w
  ∧ (wsgi_app cart (wsgi_app cart w).2).1 = (wsgi_app cart w).1.
Proof.
  intros Hsame.
  assert (∀ u u' : world,
            upstream u' PRODUCT_SERVICE_URL = upstream u PRODUCT_SERVICE_URL →
            (cart u').1 = (cart u).1) as Hdep.
  { intros u u' Hu.
    destruct (upstream u PRODUCT_SERVICE_URL) as [|[st b]] eqn:Hup.
    - by rewrite (cart_unreachable u Hup), (cart_unreachable u' Hu).
    - by apply (cart_ignores_status u' u st st b). }
  assert (∀ u u' : world,
            (cart u').1 = (cart u).1 → (wsgi_app cart u').1 = (wsgi_app cart u).1)
    as Hwsgi.
  { intros u u'. unfold wsgi_app.
    destruct (cart u') as [[r'|e'] x'], (cart u) as [[r|e] x]; simpl; congruence. }
  split_and!.
  - by apply Hdep.
  - by apply Hwsgi, Hdep.
  - by rewrite wsgi_app_world, cart_world.
  - apply Hwsgi, Hdep. by rewrite wsgi_app_world, cart_world.
Qed.

Lemma cart_idempotent_witness :
  (cart (sent "http://elsewhere/" three_entries)).1 = (cart three_entries).1
  ∧ (wsgi_app cart (sent "http://elsewhere/" three_entries)).1 =
      (wsgi_app cart three_entries).1
  ∧ upstream (wsgi_app cart three_entries).2 = upstream three_entries
  ∧ (wsgi_app cart (wsgi_app cart three_entries).2).1 =
      (wsgi_app cart three_entries).1.
Proof.
  apply (cart_idempotent three_entries (sent "http://elsewhere/" three_entries)).
  reflexivity.
Defined.

(** ** The deployed pair *)

(** With the product service answering, /cart returns Laptop and Mouse. *)
Example cart_of_products (env : gmap string string) (log : list string) :
  (wsgi_app cart (mkWorld product_network env log)).1 =
    jsonify (PyDict {[ str "cart" := PyList [product 1 "Laptop"; product 2 "Mouse"] ]}).
Proof. reflexivity. Qed.

(** With the product service out of reach, /cart answers 500. *)
Example cart_without_products :
  status (wsgi_app cart unreachable).1 = 500.
Proof. reflexivity. Qed.

(** ** What a run of the cart view answers *)

Lemma cart_ok (w : world) (st : Z) (v : pyval) :
  upstream w PRODUCT_SERVICE_URL = Replies (mkResponse st (Some v)) →
  sliceable v →
  ∃ items, (cart w).1 = Return (jsonify (PyDict {[ str "cart" := items ]}))
           ∧ (slice_to 2 v w).1 = Return items
           ∧ short_sequence items.
Proof.
  intros Hup Hv. pose proof (cart_decoded w _ _ Hup) as Hrun.
  destruct v; try done; simpl in Hrun; eexists; (split_and!; [done|done|]);
    simpl; rewrite length_take; lia.
Qed.

Lemma cart_not_sliceable (w : world) (st : Z) (v : pyval) :
  upstream w PRODUCT_SERVICE_URL = Replies (mkResponse st (Some v)) →
  ¬ sliceable v →
  ∃ e, (cart w).1 = Raise e.
Proof.
  intros Hup Hv. pose proof (cart_decoded w _ _ Hup) as Hrun.
  destruct v; simpl in *; try tauto; eauto.
Qed.

Lemma sliceable_dec (v : pyval) : sliceable v ∨ ¬ sliceable v.
Proof. destruct v; simpl; tauto. Qed.

(** The outcome of the view, by what the product service's address answers. *)
Lemma cart_outcomes (w : world) :
  (∃ e, (cart w).1 = Raise e
        ∧ ¬ (∃ st v, upstream w PRODUCT_SERVICE_URL = Replies (mkResponse st (Some v))
                     ∧ sliceable v))
  ∨ (∃ st v items,
       upstream w PRODUCT_SERVICE_URL = Replies (mkResponse st (Some v))
       ∧ sliceable v
       ∧ (cart w).1 = Return (jsonify (PyDict {[ str "cart" := items ]}))
       ∧ short_sequence items).
Proof.
  destruct (upstream w PRODUCT_SERVICE_URL) as [|[st [v|]]] eqn:Hup.
  - left. exists RequestException. split; [by apply cart_unreachable|].
    intros (? & ? & ? & ?); discriminate.
  - destruct (sliceable_dec v) as [Hv|Hv].
    + right. destruct (cart_ok w st v Hup Hv) as (items & ? & ? & ?).
      exists st, v, items. done.
    + left. destruct (cart_not_sliceable w st v Hup Hv) as [e He].
      exists e. split; [done|]. intros (? & ? & ? & ?). simplify_eq. done.
  - left. exists JSONDecodeError. split; [by apply (cart_not_json w st)|].
    intros (? & ? & ? & ?); discriminate.
Qed.

Lemma behind_upstream view u env log :
  upstream (behind view u env log) PRODUCT_SERVICE_URL =
    Replies (received (wsgi_app view u).1).
Proof. simpl. unfold service_network. by rewrite decide_True. Qed.

(** Handed responses that differ in the status only get the same answer. *)
Lemma cart_answer_ignores_status (w w' : world) (st st' : Z) (b : option pyval) :
  upstream w PRODUCT_SERVICE_URL = Replies (mkResponse st b) →
  upstream w' PRODUCT_SERVICE_URL = Replies (mkResponse st' b) →
  (wsgi_app cart w).1 = (wsgi_app cart w').1.
Proof.
  intros Hup Hup'. pose proof (cart_ignores_status w w' st st' b Hup Hup') as Hrun.
  unfold wsgi_app.
  destruct (cart w) as [[r|e] x], (cart w') as [[r'|e'] x']; simpl in *; congruence.
Qed.

(** The answer of a run of the view is the error page or a short cart. *)
Lemma cart_answer_shape (w : world) :
  (wsgi_app cart w).1 = internal_server_error
  ∨ ∃ items,
      (wsgi_app cart w).1 =
        {| status := 200; mimetype := "application/json";
           data := JsonDoc (PyDict {[ str "cart" := items ]}) |}
      ∧ short_sequence items.
Proof.
  destruct (cart_outcomes w) as [(e & He & _)|(st & v & items & _ & _ & Hrun & Hshort)].
  - left. by apply (wsgi_app_raise _ _ _ He).
  - right. exists items. by rewrite (wsgi_app_return _ _ _ Hrun).
Qed.

(** A run of the view answers 200 exactly when it is handed a response whose
    body decodes to a list or a string, and 500 otherwise. *)
Lemma cart_answer_ok_iff (w : world) :
  (status (wsgi_app cart w).1 = 200
   ↔ ∃ st v, upstream w PRODUCT_SERVICE_URL = Replies (mkResponse st (Some v))
             ∧ sliceable v)
  ∧ (status (wsgi_app cart w).1 = 200 ∨ status (wsgi_app cart w).1 = 500).
Proof.
  destruct (cart_outcomes w) as [(e & He & Hno)|(st & v & items & Hup & Hv & Hrun & _)].
  - rewrite (wsgi_app_raise _ _ _ He). simpl. split; [|by right].
    split; [discriminate|]. intros Hex. by destruct Hno.
  - rewrite (wsgi_app_return _ _ _ Hrun). simpl. split; [|by left].
    split; [|done]. intros _. by exists st, v.
Qed.

(** X4. Two catalogs get the same /cart answer exactly when they agree on
    their first two positions: entries after the second never matter, and
    any difference within the first two shows. *)
Theorem cart_same_iff_same_first_two (w w' : world) (st st' : Z)
    (catalog catalog' : list pyval) :
  upstream w PRODUCT_SERVICE_URL = Replies (mkResponse st (Some (PyList catalog))) →
  upstream w' PRODUCT_SERVICE_URL = Replies (mkResponse st' (Some (PyList catalog'))) →
  (wsgi_app cart w).1 = (wsgi_app cart w').1 ↔ take 2 catalog = take 2 catalog'.
Proof.
  intros Hup Hup'.
  rewrite (wsgi_app_return _ _ _ (cart_list w _ _ Hup)).
  rewrite (wsgi_app_return _ _ _ (cart_list w' _ _ Hup')).
  split.
  - intros Heq. apply (f_equal cart_field) in Heq.
    rewrite !cart_field_jsonify in Heq. by simplify_eq.
  - by intros ->.
Qed.

Lemma cart_same_iff_same_first_two_witness :
  (wsgi_app cart three_entries).1 =
    (wsgi_app cart (answering (mkResponse 200 (Some (PyList [PyInt 7; PyInt 8]))))).1.
Proof.
  apply (cart_same_iff_same_first_two _ _ 200 200
           [PyInt 7; PyInt 8; PyInt 9] [PyInt 7; PyInt 8]); reflexivity.
Defined.

(** ** The cart service in front of a service *)

(** X6. A fault in the service behind the cart service cascades: when the
    view serving the product address raises, its caller is sent the 500 error
    page, whose body is not JSON, so the /cart view raises in turn and
    answers 500 as well. *)
Theorem cart_upstream_fault_cascades (view : M HttpResponse) (u : world) (e : exn)
    (env : gmap string string) (log : list string) :
  (view u).1 = Raise e →
  (cart (behind view u env log)).1 = Raise JSONDecodeError
  ∧ (wsgi_app cart (behind view u env log)).1 = internal_server_error.
Proof.
  intros Hview.
  assert ((cart (behind view u env log)).1 = Raise JSONDecodeError) as Hrun.
  { apply (cart_not_json _ 500). rewrite behind_upstream.
    by rewrite (wsgi_app_raise _ _ _ Hview). }
  split; [done|]. by apply (wsgi_app_raise _ _ _ Hrun).
Qed.

Lemma cart_upstream_fault_cascades_witness :
  (cart (behind cart unreachable ∅ [])).1 = Raise JSONDecodeError
  ∧ (wsgi_app cart (behind cart unreachable ∅ [])).1 = internal_server_error.
Proof.
  apply (cart_upstream_fault_cascades cart unreachable RequestException).
  reflexivity.
Defined.

(** ** The cart service on a network *)

Lemma session_get_final (n : string → exchange) (url : string) (a : Answer) :
  n url = Answered a →
  get_redirect_target a = None →
  session_get n url =
    (Done (Replies (mkResponse (answer_status a) (answer_body a))), [url]).
Proof. apply resolve_redirects_final. Qed.

Lemma get_redirect_target_answer_of (r : HttpResponse) :
  get_redirect_target (answer_of r) = None.
Proof. unfold get_redirect_target. by case_decide. Qed.

Lemma cart_on_served (r : HttpResponse) :
  cart_on (served (Some r)) =
    (Some (wsgi_app cart (handed (Replies (received r)))).1, [PRODUCT_SERVICE_URL]).
Proof.
  unfold cart_on.
  rewrite (session_get_final _ _ (answer_of r)).
  - done.
  - unfold served. by rewrite decide_True.
  - apply get_redirect_target_answer_of.
Qed.

Lemma cart_on_unanswered :
  cart_on (served None) = (None, [PRODUCT_SERVICE_URL]).
Proof. reflexivity. Qed.

(** What a cart service sends, when it sends something. *)
Lemma cart_response_inner (m : string → exchange) :
  match (cart_on m).1 with
  | None => True
  | Some resp =>
      resp = internal_server_error
      ∨ ∃ items,
          resp = {| status := 200; mimetype := "application/json";
                    data := JsonDoc (PyDict {[ str "cart" := items ]}) |}
          ∧ short_sequence items
  end.
Proof.
  rewrite cart_on_answer.
  destruct (session_get m PRODUCT_SERVICE_URL).1 as [|rp]; [done|].
  apply cart_answer_shape.
Qed.

(** X1. The status of an answer that is not a redirect to follow is never
    read: two such answers of the product address with the same body, under
    any two statuses, get the same answer from /cart. *)
Theorem cart_status_blind (n n' : string → exchange) (a a' : Answer) :
  n PRODUCT_SERVICE_URL = Answered a →
  n' PRODUCT_SERVICE_URL = Answered a' →
  get_redirect_target a = None →
  get_redirect_target a' = None →
  answer_body a = answer_body a' →
  (cart_on n).1 = (cart_on n').1.
Proof.
  intros Hn Hn' Ha Ha' Hbody.
  rewrite !cart_on_answer.
  rewrite (session_get_final n _ a Hn Ha), (session_get_final n' _ a' Hn' Ha').
  simpl. f_equal. rewrite Hbody.
  by apply (cart_answer_ignores_status _ _ (answer_status a) (answer_status a')
              (answer_body a')).
Qed.

Lemma cart_status_blind_witness :
  (cart_on (answers (mkAnswer 200 None (Some (PyList [PyInt 7; PyInt 8; PyInt 9]))))).1 =
    (cart_on (answers (mkAnswer 302 None (Some (PyList [PyInt 7; PyInt 8; PyInt 9]))))).1.
Proof.
  apply (cart_status_blind _ _
           (mkAnswer 200 None (Some (PyList [PyInt 7; PyInt 8; PyInt 9])))
           (mkAnswer 302 None (Some (PyList [PyInt 7; PyInt 8; PyInt 9]))));
    reflexivity.
Defined.

(** X2. Whenever /cart answers, the answer is one of two things: the 500
    error page, or a 200 JSON object with the single key [cart] holding a
    list or a string of at most two elements.  It sends no answer exactly
    when its call blocks. *)
Theorem cart_response_shape (n : string → exchange) :
  match (cart_on n).1 with
  | None => (session_get n PRODUCT_SERVICE_URL).1 = Blocked
  | Some resp =>
      (∃ rp, (session_get n PRODUCT_SERVICE_URL).1 = Done rp)
      ∧ (resp = internal_server_error
         ∨ ∃ items,
             resp = {| status := 200; mimetype := "application/json";
                       data := JsonDoc (PyDict {[ str "cart" := items ]}) |}
             ∧ short_sequence items)
  end.
Proof.
  rewrite cart_on_answer.
  destruct (session_get n PRODUCT_SERVICE_URL).1 as [|rp]; [done|].
  split; [by exists rp|]. apply cart_answer_shape.
Qed.

(** X3. /cart answers 200 exactly when its call ends with a response, of
    any status, whose body decodes to a JSON array or a JSON string; when
    the call ends in any other way it answers 500, and when the call blocks
    it does not answer. *)
Theorem cart_ok_iff (n : string → exchange) :
  ((∃ resp, (cart_on n).1 = Some resp ∧ status resp = 200)
   ↔ ∃ st v, (session_get n PRODUCT_SERVICE_URL).1 =
               Done (Replies (mkResponse st (Some v)))
             ∧ sliceable v)
  ∧ (∀ resp, (cart_on n).1 = Some resp → status resp = 200 ∨ status resp = 500)
  ∧ ((cart_on n).1 = None ↔ (session_get n PRODUCT_SERVICE_URL).1 = Blocked).
Proof.
  rewrite cart_on_answer.
  destruct (session_get n PRODUCT_SERVICE_URL).1 as [|rp].
  - split_and!; [|discriminate|done].
    split; [intros (? & ? & _)|intros (? & ? & ? & _)]; discriminate.
  - destruct (cart_answer_ok_iff (handed rp)) as [Hiff Hor]. simpl in Hiff.
    split_and!.
    + split.
      * intros (resp & Hresp & Hst). simplify_eq.
        destruct (proj1 Hiff Hst) as (st & v & -> & Hv). by exists st, v.
      * intros (st & v & Hrp & Hv). simplify_eq.
        eexists. split; [done|]. apply Hiff. by exists st, v.
    + intros resp Hresp. by simplify_eq.
    + split; discriminate.
Qed.

Lemma cart_ok_iff_witness :
  ∃ resp,
    (cart_on (answers (mkAnswer 200 None (Some (PyList [PyInt 7; PyInt 8; PyInt 9]))))).1 =
      Some resp
    ∧ status resp = 200.
Proof.
  apply (proj1 (cart_ok_iff _)).
  exists 200, (PyList [PyInt 7; PyInt 8; PyInt 9]). split; [reflexivity | exact I].
Defined.

(** X5. When the products view answers the address the cart service calls,
    /cart answers 200 with the first two entries of what /products lists,
    Laptop and Mouse, and the request has sent one GET, to that address. *)
Theorem cart_after_products (u : world) :
  ∃ l,
    data (wsgi_app products u).1 = JsonDoc (PyList l)
    ∧ cart_on (served (Some (wsgi_app products u).1)) =
        (Some (jsonify (PyDict {[ str "cart" := PyList (take 2 l) ]})),
         ["http://productservice:5001/products"])
    ∧ take 2 l = [product 1 "Laptop"; product 2 "Mouse"].
Proof. eexists. split_and!; reflexivity. Qed.

(** X7. The /cart answer is never a catalog the /cart view accepts.  A cart
    service whose product address is answered by another cart service never
    answers 200: it answers 500 whenever the inner one answers, since a 200
    answer is an object, which cannot be sliced, and a 500 answer is not
    JSON; and it sends no answer when the inner one sends none. *)
Theorem cart_of_cart_fails (m : string → exchange) :
  cart_on (served (cart_on m).1) =
    (match (cart_on m).1 with
     | None => None
     | Some _ => Some internal_server_error
     end, ["http://productservice:5001/products"]).
Proof.
  pose proof (cart_response_inner m) as Hinner.
  destruct (cart_on m).1 as [r|]; [|apply cart_on_unanswered].
  rewrite cart_on_served. f_equal. f_equal.
  destruct Hinner as [->|(items & -> & _)].
  - apply (wsgi_app_raise _ _ JSONDecodeError). by apply (cart_not_json _ 500).
  - apply (wsgi_app_raise _ _ SliceKeyError).
    by rewrite (cart_decoded _ 200 (PyDict {[ str "cart" := items ]})).
Qed.

(** X8. The two files agree on the wiring: the address the cart service
    calls names the port the product service binds and the rule its view is
    routed at, and the two services bind different ports of the same
    wildcard address. *)
Theorem services_wired_together :
  PRODUCT_SERVICE_URL =
    "http://productservice:" +:+ pretty (port productservice_run) +:+ products_rule
  ∧ port cartservice_run ≠ port productservice_run
  ∧ host cartservice_run = host productservice_run
  ∧ cart_rule ≠ products_rule.
Proof. split_and!; [by vm_compute|done|done|done]. Qed.
